(** * Speech-to-speech translator (app.py): request orchestration

    A shallow embedding of [app.py]: the credential loader, the start-up
    block that builds the four service clients, [upload_to_gcs],
    [process_and_translate] and the Streamlit page that drives them.

    Everything the script reaches over a library boundary (Streamlit, pydub,
    the Google Cloud clients, the clock, the file system) is an oracle of a
    [World]; the script itself is a computation that emits the calls it makes,
    in order, and ends by returning, raising a Python [Exception], or being
    stopped by [st.stop()]. *)

From Stdlib Require Import QArith Strings.Byte.
From stdpp Require Import base option list strings pretty gmap.

Local Open Scope string_scope.
Local Open Scope Z_scope.
Local Open Scope list_scope.
Local Open Scope stdpp_scope.

(** ** Values *)

Definition bytes : Type := list Byte.byte.

(** A raised Python exception: its class name and [str(e)]. *)
Record PyException := { exc_class : string; exc_str : string }.

Definition IndexError : PyException :=
  {| exc_class := "IndexError"; exc_str := "list index out of range" |}.
Definition KeyError (key : string) : PyException :=
  {| exc_class := "KeyError"; exc_str := "'" +:+ key +:+ "'" |}.

(** [service_account.Credentials], by the constructor that built them. *)
Inductive Credentials :=
  | from_info (creds_json : string)
  | from_file_scoped (path : string) (scopes : list string).

Inductive Service := Speech | Translate | TextToSpeech | Storage.

Record Client := { client_service : Service; client_credentials : Credentials }.

(** [speech.RecognitionConfig]; a field that is not passed keeps the proto
    default ([false] for [enable_automatic_punctuation]). *)
Inductive AudioEncoding := ENCODING_UNSPECIFIED | LINEAR16 | FLAC | MULAW | MP3.

Record RecognitionConfig := {
  encoding : AudioEncoding;
  sample_rate_hertz : Z;
  language_code : string;
  enable_automatic_punctuation : bool
}.

(** [speech.RecognitionAudio]: inline bytes or a storage URI. *)
Inductive RecognitionAudio :=
  | content (b : bytes)
  | uri (u : string).

Record SpeechRecognitionAlternative := { transcript : string }.
Record SpeechRecognitionResult := { alternatives : list SpeechRecognitionAlternative }.
Record RecognizeResponse := { results : list SpeechRecognitionResult }.

(** Handle of a started [long_running_recognize] job. *)
Record Operation := { operation_name : string }.

Inductive SsmlVoiceGender := NEUTRAL | MALE | FEMALE.
Record SynthesisInput := { text : string }.
Record VoiceSelectionParams := { voice_language_code : string; ssml_gender : SsmlVoiceGender }.
Record AudioConfig := { audio_encoding : AudioEncoding }.
Record SynthesizeSpeechResponse := { audio_content : bytes }.

(** Text shown by [st.info]: a literal, or the f-string
    [f"Audio duration: {duration_seconds:.2f} seconds."] (the rendering of the
    float to two decimals is not modelled; the value is kept). *)
Inductive InfoText :=
  | Literal (s : string)
  | AudioDuration (duration_seconds : Q).

(** ** Calls made by the script, in the order it makes them.

    A call that accepts a [timeout] keyword records the one it was given
    ([None]: not passed). *)
Inductive event :=
  (* Streamlit *)
  | st_set_page_config (page_title : string)
  | st_write (s : string)
  | st_info (m : InfoText)
  | st_warning (s : string)
  | st_error (s : string)
  | st_success (s : string)
  | st_stop
  | st_title (s : string)
  | st_markdown (s : string)
  | st_divider
  | st_radio (label : string) (options : list string)
  | st_file_uploader (label : string) (types : list string)
  | st_audio (data : bytes) (format : string)
  | st_button (label : string)
  | st_spinner (s : string)
  | st_text_area (label : string) (value : option string)
  | st_subheader (s : string)
  | st_balloons
  (* credentials and clients *)
  | secrets_contains (key : string)
  | secrets_getitem (key : string)
  | os_path_exists (path : string)
  | from_service_account_info (creds_json : string)
  | from_service_account_file (path : string) (scopes : list string)
  | new_client (s : Service) (c : Credentials)
  (* pydub *)
  | AudioSegment_from_file (data : bytes)
  | AudioSegment_export (format : string)
  (* clock *)
  | time_time
  (* storage, speech, translation, synthesis *)
  | blob_upload_from_string (bucket blob : string) (data : bytes)
      (content_type : string) (timeout : option Z)
  | speech_recognize (config : RecognitionConfig) (audio : RecognitionAudio)
      (timeout : option Z)
  | speech_long_running_recognize (config : RecognitionConfig)
      (audio : RecognitionAudio) (timeout : option Z)
  | operation_result (op : Operation) (timeout : option Z)
  | translate_translate (values : string) (target_language : option string)
      (source_language : option string)
  | tts_synthesize_speech (input : SynthesisInput) (voice : VoiceSelectionParams)
      (audio_config : AudioConfig) (timeout : option Z).

(** An uploaded file as [st.file_uploader] hands it over. *)
Record UploadedFile := { file_name : string; getvalue : bytes }.

(** ** The world outside the script *)

Record World := {
  (* Streamlit secrets: the store may fail to load *)
  w_secrets : PyException + gmap string string;
  w_path_exists : string → bool;
  w_from_service_account_info : string → PyException + unit;
  w_from_service_account_file : string → list string → PyException + unit;
  w_new_client : Service → Credentials → PyException + unit;
  (* pydub *)
  AudioSegment : Type;
  w_from_file : bytes → PyException + AudioSegment;
  w_set_channels : AudioSegment → Z → AudioSegment;
  w_set_frame_rate : AudioSegment → Z → AudioSegment;
  w_export : AudioSegment → string → PyException + bytes;
  w_len : AudioSegment → Z;                 (* [len(seg)]: milliseconds *)
  w_channels : AudioSegment → Z;
  w_frame_rate : AudioSegment → Z;
  (* clock: [time.time()] *)
  w_time : Q;
  (* services *)
  w_upload : Client → string → string → bytes → string → PyException + unit;
  w_recognize : Client → RecognitionConfig → RecognitionAudio →
                PyException + RecognizeResponse;
  w_long_running_recognize : Client → RecognitionConfig → RecognitionAudio →
                PyException + Operation;
  w_operation_result : Operation → option Z → PyException + RecognizeResponse;
  w_translate : Client → string → option string → option string →
                PyException + gmap string string;
  w_synthesize_speech : Client → SynthesisInput → VoiceSelectionParams →
                AudioConfig → PyException + SynthesizeSpeechResponse;
  (* the user *)
  w_radio : list string → string;           (* the option the user selected *)
  w_file_uploader : option UploadedFile;
  w_button : bool
}.

(** ** Script computations *)

Inductive outcome (A : Type) :=
  | Returns (a : A)
  | Raises (e : PyException)     (* an [Exception] *)
  | Stopped.                     (* [st.stop()]: not an [Exception] *)
Arguments Returns {A} a.
Arguments Raises {A} e.
Arguments Stopped {A}.

Definition Script (A : Type) : Type := list event * outcome A.

Definition calls {A} (c : Script A) : list event := c.1.
Definition result {A} (c : Script A) : outcome A := c.2.

Definition ret {A} (a : A) : Script A := ([], Returns a).
Definition raise {A} (e : PyException) : Script A := ([], Raises e).

Definition bind {A B} (c : Script A) (k : A → Script B) : Script B :=
  match c with
  | (t, Returns a) => let '(t', o) := k a in (t ++ t', o)
  | (t, Raises e) => (t, Raises e)
  | (t, Stopped) => (t, Stopped)
  end.

Declare Scope script_scope.
Delimit Scope script_scope with script.
Notation "'do' x <- c ; k" := (bind c (λ x, k))
  (at level 10, x name, c at level 100, k at level 200) : script_scope.
Notation "c ;; k" := (bind c (λ _, k))
  (at level 100, k at level 200, right associativity) : script_scope.
Local Open Scope script_scope.

(** [emit e] records a call that returns nothing of interest. *)
Definition emit (e : event) : Script unit := ([e], Returns tt).

(** A call whose answer comes from the world. *)
Definition ask {A} (e : event) (answer : PyException + A) : Script A :=
  ([e], match answer with inl x => Raises x | inr a => Returns a end).

(** [try: body except Exception as e: handler e]. *)
Definition try_except {A} (body : Script A) (handler : PyException → Script A)
  : Script A :=
  match body with
  | (t, Raises e) => let '(t', o) := handler e in (t ++ t', o)
  | _ => body
  end.

(** [st.stop()] ends the script run. *)
Definition stop {A} : Script A := ([st_stop], Stopped).

(** ** Small Python helpers *)

(** [int(x)] on a float: truncation toward zero. *)
Definition int_of (x : Q) : Z := Z.quot (Qnum x) (Z.pos (Qden x)).

(** [a < b] on numbers. *)
Definition Qlt_bool (a b : Q) : bool :=
  bool_decide (Qnum a * Z.pos (Qden b) < Qnum b * Z.pos (Qden a)).

(** Truthiness of an optional byte string: [None] and [b""] are false. *)
Definition truthy (b : option bytes) : bool :=
  match b with
  | Some (_ :: _) => true
  | _ => false
  end.

(** ["".join(result.alternatives[0].transcript for result in results)]:
    the generator is consumed left to right, and indexing an empty
    [alternatives] raises at the first such segment. *)
Fixpoint join_transcripts (rs : list SpeechRecognitionResult)
  : PyException + string :=
  match rs with
  | [] => inr ""
  | r :: rs' =>
      match alternatives r with
      | [] => inl IndexError
      | a :: _ =>
          match join_transcripts rs' with
          | inl e => inl e
          | inr s => inr (transcript a +:+ s)
          end
      end
  end.

Definition lift {A} (x : PyException + A) : Script A :=
  match x with inl e => raise e | inr a => ret a end.

(** [d[key]] on a dict. *)
Definition getitem (d : gmap string string) (key : string) : Script string :=
  match d !! key with
  | Some v => ret v
  | None => raise (KeyError key)
  end.

(** Module-level names bound by the start-up block. *)
Record Globals := {
  credentials : Credentials;
  speech_client : Client;
  translate_client : Client;
  tts_client : Client;
  storage_client : Client;
  BUCKET_NAME : string
}.

(** ** The script *)

Section App.
Context (W : World).

(** [load_gcp_credentials()] *)
Definition load_gcp_credentials : Script Credentials :=
  do has <- ask (secrets_contains "gcp_credentials")
              (match w_secrets W with
               | inl e => inl e
               | inr secrets => inr (bool_decide (is_Some (secrets !! "gcp_credentials")))
               end);
  if has then
    do creds_json <- ask (secrets_getitem "gcp_credentials")
                       (match w_secrets W with
                        | inl e => inl e
                        | inr secrets =>
                            match secrets !! "gcp_credentials" with
                            | Some v => inr v
                            | None => inl (KeyError "gcp_credentials")
                            end
                        end);
    ask (from_service_account_info creds_json)
        (match w_from_service_account_info W creds_json with
         | inl e => inl e
         | inr _ => inr (from_info creds_json)
         end)
  else
    do found <- ask (os_path_exists "gcp-key.json")
                  (inr (w_path_exists W "gcp-key.json"));
    if found then
      let scopes := ["https://www.googleapis.com/auth/cloud-platform"] in
      ask (from_service_account_file "gcp-key.json" scopes)
          (match w_from_service_account_file W "gcp-key.json" scopes with
           | inl e => inl e
           | inr _ => inr (from_file_scoped "gcp-key.json" scopes)
           end)
    else
      emit (st_error "GCP credentials not found. Please set them up in Streamlit Secrets or add a gcp-key.json file.") ;;
      stop.

(** A client constructor, [speech.SpeechClient(credentials=credentials)]
    and its three siblings. *)
Definition make_client (s : Service) (c : Credentials) : Script Client :=
  ask (new_client s c)
      (match w_new_client W s c with
       | inl e => inl e
       | inr _ => inr {| client_service := s; client_credentials := c |}
       end).

(** The start-up block: [try: ... except Exception as e: ...]. *)
Definition initialize_clients : Script Globals :=
  try_except
    (do credentials <- load_gcp_credentials;
     do speech_client <- make_client Speech credentials;
     do translate_client <- make_client Translate credentials;
     do tts_client <- make_client TextToSpeech credentials;
     do storage_client <- make_client Storage credentials;
     ret {| credentials := credentials;
            speech_client := speech_client;
            translate_client := translate_client;
            tts_client := tts_client;
            storage_client := storage_client;
            BUCKET_NAME := "bucket-for-translator-462605" |})
    (λ e,
       emit (st_error ("Error initializing Google Cloud clients: " +:+ exc_str e)) ;;
       stop).

Context (G : Globals).

(** [upload_to_gcs(audio_content, destination_blob_name)] *)
Definition upload_to_gcs (audio_content : bytes) (destination_blob_name : string)
  : Script string :=
  ask (blob_upload_from_string (BUCKET_NAME G) destination_blob_name
         audio_content "audio/wav" None)
      (w_upload W (storage_client G) (BUCKET_NAME G) destination_blob_name
         audio_content "audio/wav") ;;
  ret ("gs://" +:+ BUCKET_NAME G +:+ "/" +:+ destination_blob_name).

(** The body of the [try] in [process_and_translate].

    [len(audio_segment) / 1000.0] is a float in the script and a rational
    here.  The only use the script makes of it besides displaying it is the
    test [duration_seconds < 60]; [len] is an integer number of milliseconds,
    the float quotient is the rational one correctly rounded, and no rational
    [len/1000] below 60 rounds up to 60, so the float test and the rational
    test agree. *)
Definition process_and_translate_body (audio_bytes : bytes) (source_lang_code : string)
  : Script (option string * option string * option bytes) :=
  emit (st_write "1. Processing audio...") ;;
  do audio_segment <- ask (AudioSegment_from_file audio_bytes) (w_from_file W audio_bytes);
  let audio_segment :=
    w_set_frame_rate W (w_set_channels W audio_segment 1) 16000 in
  do processed_audio_content <-
    ask (AudioSegment_export "wav") (w_export W audio_segment "wav");
  let duration_seconds := (inject_Z (w_len W audio_segment) / 1000)%Q in
  emit (st_info (AudioDuration duration_seconds)) ;;
  emit (st_write "2. Transcribing audio...") ;;
  do response <-
    (if Qlt_bool duration_seconds 60%Q then
       let audio := content processed_audio_content in
       let config := {| encoding := LINEAR16; sample_rate_hertz := 16000;
                        language_code := source_lang_code;
                        enable_automatic_punctuation := false |} in
       ask (speech_recognize config audio None)
           (w_recognize W (speech_client G) config audio)
     else
       emit (st_info (Literal "Long audio detected. Uploading to Cloud Storage...")) ;;
       do now <- ask time_time (inr (w_time W));
       do gcs_uri <- upload_to_gcs processed_audio_content
                       ("audio-uploads/temp-" +:+ pretty (int_of now) +:+ ".wav");
       let audio := uri gcs_uri in
       let config := {| encoding := LINEAR16; sample_rate_hertz := 16000;
                        language_code := source_lang_code;
                        enable_automatic_punctuation := true |} in
       do operation <- ask (speech_long_running_recognize config audio None)
                         (w_long_running_recognize W (speech_client G) config audio);
       ask (operation_result operation (Some 900))
           (w_operation_result W operation (Some 900)));
  do transcript <- lift (join_transcripts (results response));
  if bool_decide (transcript = "") then
    emit (st_warning "Could not recognize speech. Please try again.") ;;
    ret (None, None, None)
  else
    emit (st_write "3. Translating and synthesizing speech...") ;;
    do translation_result <-
      ask (translate_translate transcript (Some "ta") None)
          (w_translate W (translate_client G) transcript (Some "ta") None);
    do translated_text <- getitem translation_result "translatedText";
    let synthesis_input := {| text := translated_text |} in
    let voice_params := {| voice_language_code := "ta-IN"; ssml_gender := NEUTRAL |} in
    let audio_config := {| audio_encoding := MP3 |} in
    do tts_response <-
      ask (tts_synthesize_speech synthesis_input voice_params audio_config None)
          (w_synthesize_speech W (tts_client G) synthesis_input voice_params audio_config);
    ret (Some transcript, Some translated_text, Some (audio_content tts_response)).

(** [process_and_translate(audio_bytes, source_lang_code)] *)
Definition process_and_translate (audio_bytes : bytes) (source_lang_code : string)
  : Script (option string * option string * option bytes) :=
  try_except
    (process_and_translate_body audio_bytes source_lang_code)
    (λ e,
       emit (st_error ("An error occurred during processing: " +:+ exc_str e)) ;;
       ret (None, None, None)).

(** [input_lang_options], in insertion order. *)
Definition input_lang_options : list (string * string) :=
  [("English", "en-US"); ("Hindi", "hi-IN")].

(** [d[key]] on [input_lang_options]. *)
Definition lang_getitem (d : list (string * string)) (key : string) : Script string :=
  match list_find (λ kv, kv.1 = key) d with
  | Some (_, kv) => ret kv.2
  | None => raise (KeyError key)
  end.

(** The page: everything below [# --- Streamlit UI ---]. *)
Definition page : Script unit :=
  emit (st_title "Speech-to-Speech Translator") ;;
  emit (st_markdown "Translate **English** or **Hindi** into audible **Tamil** by uploading an audio file.") ;;
  emit st_divider ;;
  let options := input_lang_options.*1 in
  do selected_lang_name <-
    ask (st_radio "1. Select the language of the uploaded audio:" options)
        (inr (w_radio W options));
  do source_lang_code <- lang_getitem input_lang_options selected_lang_name;
  do uploaded_file <-
    ask (st_file_uploader "2. Upload your audio file (WAV or MP3):" ["wav"; "mp3"])
        (inr (w_file_uploader W));
  match uploaded_file with
  | Some uploaded_file =>
      emit (st_audio (getvalue uploaded_file) "audio/wav") ;;
      do clicked <- ask (st_button "🚀 Translate Now") (inr (w_button W));
      if clicked then
        emit (st_spinner "Translation in progress... This may take a moment.") ;;
        let audio_bytes := getvalue uploaded_file in
        do r <- process_and_translate audio_bytes source_lang_code;
        let '(original_text, translated_text, translated_audio) := r in
        if truthy translated_audio then
          emit (st_success "Translation Complete!") ;;
          emit (st_text_area "Recognized Text" original_text) ;;
          emit (st_text_area "Translated Text (Tamil)" translated_text) ;;
          emit (st_subheader "Translated Audio (Tamil)") ;;
          emit (st_audio (default [] translated_audio) "audio/mp3") ;;
          emit st_balloons
        else ret tt
      else ret tt
  | None => ret tt
  end.

End App.

(** The whole script, top to bottom. *)
Definition app (W : World) : Script unit :=
  emit (st_set_page_config "Speech-to-Speech Translator") ;;
  do G <- initialize_clients W;
  page W G.

(** ** Reading a run *)

(** [sat c Φ]: the calls and the outcome of [c] satisfy [Φ]. *)
Definition sat {A} (c : Script A) (Φ : list event → outcome A → Prop) : Prop :=
  Φ (calls c) (result c).

Definition is_translation_call (e : event) : bool :=
  match e with translate_translate _ _ _ => true | _ => false end.

Definition is_synthesis_call (e : event) : bool :=
  match e with tts_synthesize_speech _ _ _ _ => true | _ => false end.

Definition is_error_message (e : event) : bool :=
  match e with st_error _ => true | _ => false end.

(** What the page shows only after a successful translation. *)
Definition is_result_display (e : event) : bool :=
  match e with
  | st_success _ | st_text_area _ _ | st_subheader _ | st_balloons => true
  | st_audio _ format => bool_decide (format = "audio/mp3")
  | _ => false
  end.

(** The two transcription branches, and the calls that belong to each. *)
Inductive Branch := ShortPath | LongPath.

Definition branch_of_call (e : event) : option Branch :=
  match e with
  | speech_recognize _ _ _ => Some ShortPath
  | blob_upload_from_string _ _ _ _ _
  | speech_long_running_recognize _ _ _
  | operation_result _ _ => Some LongPath
  | _ => None
  end.

(** The [timeout] keyword a call was given, if it takes one and got one. *)
Definition explicit_timeout (e : event) : option Z :=
  match e with
  | blob_upload_from_string _ _ _ _ timeout
  | speech_recognize _ _ timeout
  | speech_long_running_recognize _ _ timeout
  | operation_result _ timeout
  | tts_synthesize_speech _ _ _ timeout => timeout
  | _ => None
  end.

(** The recognition service answered [resp] to the recognition call of this
    run: to [recognize] on the short path, to [operation.result] on the long
    one. *)
Definition transcription_returned (W : World) (G : Globals) (t : list event)
    (resp : RecognizeResponse) : Prop :=
  (∃ config audio timeout,
      speech_recognize config audio timeout ∈ t ∧
      w_recognize W (speech_client G) config audio = inr resp) ∨
  (∃ op timeout,
      operation_result op timeout ∈ t ∧
      w_operation_result W op timeout = inr resp).

(** The fault, if any, with which the world answers a call to one of the four
    services (storage, transcription, translation, synthesis). *)
Definition fault_of {A} (answer : PyException + A) : option PyException :=
  match answer with inl e => Some e | inr _ => None end.

Definition service_fault (W : World) (G : Globals) (e : event) : option PyException :=
  match e with
  | blob_upload_from_string bucket blob data content_type _ =>
      fault_of (w_upload W (storage_client G) bucket blob data content_type)
  | speech_recognize config audio _ =>
      fault_of (w_recognize W (speech_client G) config audio)
  | speech_long_running_recognize config audio _ =>
      fault_of (w_long_running_recognize W (speech_client G) config audio)
  | operation_result op timeout =>
      fault_of (w_operation_result W op timeout)
  | translate_translate values target source =>
      fault_of (w_translate W (translate_client G) values target source)
  | tts_synthesize_speech input voice audio_config _ =>
      fault_of (w_synthesize_speech W (tts_client G) input voice audio_config)
  | _ => None
  end.

(** The statement of the transcript claim: the first alternative's transcript
    of each result segment, in order, joined with no separator. *)
Definition first_transcript (r : SpeechRecognitionResult) : string :=
  default "" (transcript <$> head (alternatives r)).

Definition concatenated_first_alternatives (resp : RecognizeResponse) : string :=
  String.concat "" (first_transcript <$> results resp).

(** What pydub documents for [set_channels] and [set_frame_rate]. *)
Definition pydub_contract (W : World) : Prop :=
  (∀ s n, w_channels W (w_set_channels W s n) = n) ∧
  (∀ s r, w_frame_rate W (w_set_frame_rate W s r) = r) ∧
  (∀ s r, w_channels W (w_set_frame_rate W s r) = w_channels W s).



(** The blob name of an upload made when the clock reads [now]. *)
Definition temp_blob_name (now : Q) : string :=
  "audio-uploads/temp-" +:+ pretty (int_of now) +:+ ".wav".

(** ** A sample world

    pydub decodes [n] bytes as an [n]-second stereo 44.1 kHz clip; the
    recognition service answers with the given segments, whatever the audio. *)

Record Clip := {
  clip_channels : Z; clip_frame_rate : Z; clip_ms : Z; clip_pcm : bytes
}.

Definition sample_response (segments : list (list string)) : RecognizeResponse :=
  {| results := (λ alts, {| alternatives := (λ s, {| transcript := s |}) <$> alts |})
                  <$> segments |}.

Definition sample_world (secrets : PyException + gmap string string)
    (key_file : bool) (segments : list (list string)) (now : Q)
    (translation : PyException + gmap string string) : World :=
  {| w_secrets := secrets;
     w_path_exists := λ path, key_file && bool_decide (path = "gcp-key.json");
     w_from_service_account_info := λ _, inr tt;
     w_from_service_account_file := λ _ _, inr tt;
     w_new_client := λ _ _, inr tt;
     AudioSegment := Clip;
     w_from_file := λ data,
       match data with
       | [] => inl {| exc_class := "CouldntDecodeError"; exc_str := "Decoding failed." |}
       | _ => inr {| clip_channels := 2; clip_frame_rate := 44100;
                     clip_ms := 1000 * Z.of_nat (length data); clip_pcm := data |}
       end;
     w_set_channels := λ s n,
       {| clip_channels := n; clip_frame_rate := clip_frame_rate s;
          clip_ms := clip_ms s; clip_pcm := clip_pcm s |};
     w_set_frame_rate := λ s r,
       {| clip_channels := clip_channels s; clip_frame_rate := r;
          clip_ms := clip_ms s; clip_pcm := clip_pcm s |};
     w_export := λ s _, inr (clip_pcm s);
     w_len := clip_ms;
     w_channels := clip_channels;
     w_frame_rate := clip_frame_rate;
     w_time := now;
     w_upload := λ _ _ _ _ _, inr tt;
     w_recognize := λ _ _ _, inr (sample_response segments);
     w_long_running_recognize := λ _ _ _, inr {| operation_name := "operations/1" |};
     w_operation_result := λ _ _, inr (sample_response segments);
     w_translate := λ _ _ _ _, translation;
     w_synthesize_speech := λ _ _ _ _, inr {| audio_content := ["I"; "D"; "3"]%byte |};
     w_radio := λ options, default "" (head options);
     w_file_uploader := None;
     w_button := false |}.

Definition sample_globals : Globals :=
  let c := from_file_scoped "gcp-key.json"
             ["https://www.googleapis.com/auth/cloud-platform"] in
  {| credentials := c;
     speech_client := {| client_service := Speech; client_credentials := c |};
     translate_client := {| client_service := Translate; client_credentials := c |};
     tts_client := {| client_service := TextToSpeech; client_credentials := c |};
     storage_client := {| client_service := Storage; client_credentials := c |};
     BUCKET_NAME := "bucket-for-translator-462605" |}.

Definition tamil : PyException + gmap string string :=
  inr {[ "translatedText" := "vanakkam ulagam"; "input" := "hello world" ]}.

Definition quota_exceeded : PyException :=
  {| exc_class := "Forbidden"; exc_str := "403 Quota exceeded" |}.

(** Ten seconds and ninety seconds of audio. *)
Definition clip10 : bytes := replicate 10 "x"%byte.
Definition clip90 : bytes := replicate 90 "x"%byte.

(** Speech, silence, and a broken translation service. *)
Definition hello_world : World :=
  sample_world (inr ∅) true [["hello "; "hallo "]; ["world"]] 1700000000 tamil.
Definition silence : World :=
  sample_world (inr ∅) true [] 1700000000 tamil.
Definition no_translation : World :=
  sample_world (inr ∅) true [["hello "]; ["world"]] 1700000000 (inl quota_exceeded).

(** Two requests a quarter and three quarters of a second after 1700000000. *)
Definition at_quarter_past : World :=
  sample_world (inr ∅) true [["hello "]; ["world"]] (6800000001 # 4) tamil.
Definition at_quarter_to : World :=
  sample_world (inr ∅) true [["namaste"]] (6800000003 # 4) tamil.

(** A visitor who uploads ten seconds of audio and presses the button. *)
Definition with_visitor (W : World) : World :=
  {| w_secrets := w_secrets W;
     w_path_exists := w_path_exists W;
     w_from_service_account_info := w_from_service_account_info W;
     w_from_service_account_file := w_from_service_account_file W;
     w_new_client := w_new_client W;
     AudioSegment := AudioSegment W;
     w_from_file := w_from_file W;
     w_set_channels := w_set_channels W;
     w_set_frame_rate := w_set_frame_rate W;
     w_export := w_export W;
     w_len := w_len W;
     w_channels := w_channels W;
     w_frame_rate := w_frame_rate W;
     w_time := w_time W;
     w_upload := w_upload W;
     w_recognize := w_recognize W;
     w_long_running_recognize := w_long_running_recognize W;
     w_operation_result := w_operation_result W;
     w_translate := w_translate W;
     w_synthesize_speech := w_synthesize_speech W;
     w_radio := w_radio W;
     w_file_uploader := Some {| file_name := "clip.wav"; getvalue := clip10 |};
     w_button := true |}.

(** Start-up with the secret present, and with no credential source at all. *)
Definition deployed : World :=
  sample_world (inr {[ "gcp_credentials" := "{...}" ]}) false [] 0 tamil.
Definition no_credentials : World :=
  sample_world (inr ∅) false [] 0 tamil.

(** ** More ways to read a run *)

(** The calls that reach one of the four services. *)
Inductive ServiceCall :=
  | CallUpload | CallRecognize | CallLongRunning | CallWait
  | CallTranslate | CallSynthesize.

Definition service_call (e : event) : option ServiceCall :=
  match e with
  | blob_upload_from_string _ _ _ _ _ => Some CallUpload
  | speech_recognize _ _ _ => Some CallRecognize
  | speech_long_running_recognize _ _ _ => Some CallLongRunning
  | operation_result _ _ => Some CallWait
  | translate_translate _ _ _ => Some CallTranslate
  | tts_synthesize_speech _ _ _ _ => Some CallSynthesize
  | _ => None
  end.

(** The service calls of a request, in order, on each branch. *)
Definition short_pipeline : list ServiceCall :=
  [CallRecognize; CallTranslate; CallSynthesize].
Definition long_pipeline : list ServiceCall :=
  [CallUpload; CallLongRunning; CallWait; CallTranslate; CallSynthesize].

(** The widgets the page draws before any request is processed. *)
Definition is_widget (e : event) : bool :=
  match e with
  | st_title _ | st_markdown _ | st_divider | st_radio _ _
  | st_file_uploader _ _ | st_audio _ _ | st_button _ => true
  | _ => false
  end.

Definition is_warning (e : event) : bool :=
  match e with st_warning _ => true | _ => false end.

(** The fault, if any, with which the world answers a call of the start-up
    block. *)
Definition startup_fault (W : World) (e : event) : option PyException :=
  match e with
  | secrets_contains _ | secrets_getitem _ => fault_of (w_secrets W)
  | from_service_account_info creds_json =>
      fault_of (w_from_service_account_info W creds_json)
  | from_service_account_file path scopes =>
      fault_of (w_from_service_account_file W path scopes)
  | new_client s c => fault_of (w_new_client W s c)
  | _ => None
  end.

(** The voice and the output format of every synthesis. *)
Definition tamil_voice : VoiceSelectionParams :=
  {| voice_language_code := "ta-IN"; ssml_gender := NEUTRAL |}.
Definition mp3_output : AudioConfig := {| audio_encoding := MP3 |}.

(** ** More sample worlds *)

(** [W] with other answers from the credential and client constructors, from
    synthesis, and from the visitor. *)
Definition rewired (W : World)
    (info : string → PyException + unit)
    (clients : Service → Credentials → PyException + unit)
    (synthesis : PyException + SynthesizeSpeechResponse)
    (selection : string) (upload : option UploadedFile) (pressed : bool) : World :=
  {| w_secrets := w_secrets W;
     w_path_exists := w_path_exists W;
     w_from_service_account_info := info;
     w_from_service_account_file := w_from_service_account_file W;
     w_new_client := clients;
     AudioSegment := AudioSegment W;
     w_from_file := w_from_file W;
     w_set_channels := w_set_channels W;
     w_set_frame_rate := w_set_frame_rate W;
     w_export := w_export W;
     w_len := w_len W;
     w_channels := w_channels W;
     w_frame_rate := w_frame_rate W;
     w_time := w_time W;
     w_upload := w_upload W;
     w_recognize := w_recognize W;
     w_long_running_recognize := w_long_running_recognize W;
     w_operation_result := w_operation_result W;
     w_translate := w_translate W;
     w_synthesize_speech := λ _ _ _ _, synthesis;
     w_radio := λ _, selection;
     w_file_uploader := upload;
     w_button := pressed |}.

Definition malformed : PyException :=
  {| exc_class := "ValueError";
     exc_str := "Service account info was not in the expected format" |}.
Definition unavailable : PyException :=
  {| exc_class := "ServiceUnavailable"; exc_str := "503 unavailable" |}.

Definition id3 : PyException + SynthesizeSpeechResponse :=
  inr {| audio_content := ["I"; "D"; "3"]%byte |}.
Definition clip_upload : option UploadedFile :=
  Some {| file_name := "clip.wav"; getvalue := clip10 |}.

(** The secret is present but malformed, while the key file exists. *)
Definition malformed_secret : World :=
  rewired (sample_world (inr {[ "gcp_credentials" := "{" ]}) true [] 0 tamil)
    (λ _, inl malformed) (λ _ _, inr tt) id3 "English" None false.

(** The Text-to-Speech client cannot be built. *)
Definition tts_client_down : World :=
  rewired hello_world (λ _, inr tt)
    (λ s _, match s with TextToSpeech => inl unavailable | _ => inr tt end)
    id3 "English" None false.

(** Synthesis answers with no audio at all. *)
Definition mute_synthesis : World :=
  rewired hello_world (λ _, inr tt) (λ _ _, inr tt)
    (inr {| audio_content := [] |}) "English" clip_upload true.

(** A Hindi speaker; a selection that is not on offer; a visitor who uploads
    and does not press the button. *)
Definition hindi_visitor : World :=
  rewired hello_world (λ _, inr tt) (λ _ _, inr tt) id3 "Hindi" clip_upload true.
Definition tamil_selected : World :=
  rewired hello_world (λ _, inr tt) (λ _ _, inr tt) id3 "Tamil" clip_upload true.
Definition hesitant_visitor : World :=
  rewired hello_world (λ _, inr tt) (λ _ _, inr tt) id3 "English" clip_upload false.

(** A translation answer without "translatedText"; a recognition answer whose
    second segment has no alternative. *)
Definition untranslated : World :=
  sample_world (inr ∅) true [["hello "]; ["world"]] 1700000000
    (inr {[ "input" := "hello world" ]}).
Definition no_alternative : World :=
  sample_world (inr ∅) true [["hello "]; []] 1700000000 tamil.

(** ** Rules for walking a script, one statement at a time *)

Section Rules.
Context {A B : Type}.

Lemma sat_ret (a : A) Φ : Φ [] (Returns a) → sat (ret a) Φ.
Proof. done. Qed.

Lemma sat_raise (e : PyException) (Φ : list event → outcome A → Prop) :
  Φ [] (Raises e) → sat (raise e) Φ.
Proof. done. Qed.

Lemma sat_stop (Φ : list event → outcome A → Prop) :
  Φ [st_stop] Stopped → sat stop Φ.
Proof. done. Qed.

Lemma sat_emit (e : event) Φ : Φ [e] (Returns tt) → sat (emit e) Φ.
Proof. done. Qed.

Lemma sat_ask (e : event) (answer : PyException + A) Φ :
  match answer with
  | inl x => Φ [e] (Raises x)
  | inr a => Φ [e] (Returns a)
  end → sat (ask e answer) Φ.
Proof. by destruct answer. Qed.

Lemma sat_bind (c : Script A) (k : A → Script B) Φ :
  sat c (λ t o,
    match o with
    | Returns a => sat (k a) (λ t' o', Φ (t ++ t') o')
    | Raises e => Φ t (Raises e)
    | Stopped => Φ t Stopped
    end) →
  sat (bind c k) Φ.
Proof.
  unfold sat, bind, calls, result. destruct c as [t [a|e|]]; simpl; try done.
  by destruct (k a).
Qed.

Lemma sat_try_except (body : Script A) (handler : PyException → Script A) Φ :
  sat body (λ t o,
    match o with
    | Raises e => sat (handler e) (λ t' o', Φ (t ++ t') o')
    | _ => Φ t o
    end) →
  sat (try_except body handler) Φ.
Proof.
  unfold sat, try_except, calls, result. destruct body as [t [a|e|]]; simpl; try done.
  by destruct (handler e).
Qed.

Lemma sat_mono (c : Script A) (Φ Ψ : list event → outcome A → Prop) :
  (∀ t o, Φ t o → Ψ t o) → sat c Φ → sat c Ψ.
Proof. unfold sat. auto. Qed.
End Rules.

(** One step of a walk through a script. *)
Ltac walk_step :=
  lazymatch goal with
  | |- sat (bind _ _) _ => apply sat_bind
  | |- sat (try_except _ _) _ => apply sat_try_except
  | |- sat (emit _) _ => apply sat_emit
  | |- sat (ret _) _ => apply sat_ret
  | |- sat (raise _) _ => apply sat_raise
  | |- sat stop _ => apply sat_stop
  | |- sat (ask _ (inr _)) _ => apply sat_ask
  | |- sat (ask _ ?answer) _ => apply sat_ask; destruct answer eqn:?
  | |- sat (lift ?x) _ => unfold lift; destruct x eqn:?
  | |- sat (getitem ?d ?k) _ => unfold getitem; destruct (d !! k) eqn:?
  | |- sat (if ?b then _ else _) _ => destruct b eqn:?
  | |- sat (match ?x with _ => _ end) _ => destruct x eqn:?
  end; cbn beta iota zeta.

Ltac walk := repeat walk_step.


(** State the goal about [c] as a [sat] goal. *)
Ltac as_sat c :=
  pattern (calls c), (result c);
  lazymatch goal with |- ?Φ _ _ => change (sat c Φ) end.

(** Membership in a list of calls that is known call by call. *)
Ltac elems :=
  repeat match goal with
  | H : _ ∈ [] |- _ => by apply elem_of_nil in H
  | H : ?x ∈ _ :: _ |- _ =>
      apply elem_of_cons in H as [H|H]; [first [discriminate H | is_var x; subst x | simplify_eq H; intros; subst] |]
  | H : _ ∈ _ ++ _ |- _ => apply elem_of_app in H as [H|H]
  end.

(** Two answers of the world to one and the same call are the same answer. *)
Ltac same_answer :=
  try congruence;
  repeat match goal with
  | H1 : ?x = inr ?a, H2 : ?x = inr ?b |- _ =>
      assert (b = a) by congruence; clear H2; subst
  | H1 : ?x = inl ?a, H2 : ?x = inl ?b |- _ =>
      assert (b = a) by congruence; clear H2; subst
  end.

(** A call occurs in the calls of a run that computes. *)
Ltac in_calls :=
  vm_compute; repeat first [apply list_elem_of_here | apply list_elem_of_further].

(** The same, in a list of calls whose shape is known. *)
Ltac find_call :=
  solve [repeat first [apply list_elem_of_here | apply list_elem_of_further]].

(** Open the disjunctions and existentials among the hypotheses. *)
Ltac destruct_hyps :=
  repeat match goal with
  | H : _ ∨ _ |- _ => destruct H as [H|H]
  | H : ∃ _, _ |- _ => destruct H as [? H]
  | H : _ ∧ _ |- _ => destruct H as [? H]
  end.

Ltac decided :=
  repeat match goal with
  | H : bool_decide _ = true |- _ => apply bool_decide_eq_true in H
  | H : bool_decide _ = false |- _ => apply bool_decide_eq_false in H
  end.

Ltac walk_process :=
  unfold process_and_translate, process_and_translate_body, upload_to_gcs; walk; simpl.

(** ** Claims about [process_and_translate] *)

(** C2.  When the segments returned by the recognition service join to the
    empty string, the request ends normally with the "Could not recognize
    speech" warning as its last call: it returns the all-[None] triple, makes
    no translation call, no synthesis call and shows no error.  And whatever
    the run, a translation call is only ever made with a non-empty
    transcript. *)
Theorem empty_transcript_short_circuits W G audio_bytes source_lang_code :
  let run := process_and_translate W G audio_bytes source_lang_code in
  (∀ resp, transcription_returned W G (calls run) resp →
     join_transcripts (results resp) = inr "" →
     result run = Returns (None, None, None) ∧
     last (calls run) = Some (st_warning "Could not recognize speech. Please try again.") ∧
     Forall (λ e, is_translation_call e = false ∧ is_synthesis_call e = false
                  ∧ is_error_message e = false) (calls run)) ∧
  (∀ values target source,
     translate_translate values target source ∈ calls run → values ≠ "").
Proof.
  intros run. subst run.
  as_sat (process_and_translate W G audio_bytes source_lang_code).
  walk_process.
  all: split; [intros resp [(?&?&?&Hin&?)|(?&?&Hin&?)] Hjoin | intros ??? Hin]; elems.
  all: same_answer; decided.
  all: repeat split; try done.
  all: by repeat constructor.
Qed.

Lemma empty_transcript_short_circuits_witness :
  result (process_and_translate silence sample_globals clip10 "en-US")
    = Returns (None, None, None) ∧
  last (calls (process_and_translate silence sample_globals clip10 "en-US"))
    = Some (st_warning "Could not recognize speech. Please try again.") ∧
  Forall (λ e, is_translation_call e = false ∧ is_synthesis_call e = false
               ∧ is_error_message e = false)
    (calls (process_and_translate silence sample_globals clip10 "en-US")).
Proof.
  apply (proj1 (empty_transcript_short_circuits silence sample_globals clip10 "en-US")
           (sample_response [])).
  - left. eexists _, _, _. split; [|reflexivity].
    in_calls.
  - reflexivity.
Defined.




(** The duration the script compares with 60 is [len] milliseconds over 1000,
    so the test is [len < 60000]. *)
Lemma duration_lt_60 (len : Z) :
  Qlt_bool (inject_Z len / 1000) 60 = bool_decide (len < 60000).
Proof.
  unfold Qlt_bool. simpl. apply bool_decide_ext. lia.
Qed.



(** Ninety seconds of audio go through storage and the long-running job. *)
Example ninety_seconds_take_the_long_path :
  omap branch_of_call
    (calls (process_and_translate hello_world sample_globals clip90 "hi-IN"))
  = [LongPath; LongPath; LongPath].
Proof. reflexivity. Qed.

(** [join_transcripts], when it does not raise, is [String.concat] with the
    empty separator over the first alternatives. *)
Lemma string_app_empty_r (x : string) : x +:+ "" = x.
Proof.
  induction x as [|c x IH]; [done|].
  change (String c (x +:+ "") = String c x). by rewrite IH.
Qed.

Lemma concat_empty_separator (x : string) (xs : list string) :
  String.concat "" (x :: xs) = x +:+ String.concat "" xs.
Proof.
  destruct xs as [|y ys]; simpl; [|done]. by rewrite string_app_empty_r.
Qed.

Lemma join_transcripts_concat rs s :
  join_transcripts rs = inr s →
  s = String.concat "" (first_transcript <$> rs).
Proof.
  revert s. induction rs as [|r rs IH]; intros s Hjoin.
  - by injection Hjoin as <-.
  - rewrite fmap_cons, concat_empty_separator.
    cbn [join_transcripts] in Hjoin. unfold first_transcript at 1.
    destruct (alternatives r) as [|a alts]; [done|].
    destruct (join_transcripts rs) as [e|s'] eqn:Hrs; [done|].
    injection Hjoin as <-. simpl. by rewrite (IH s').
Qed.


(** C3, as the script has it.  The translation call is given the transcript
    (the joined first alternatives of the recognition answer, the very string
    the request returns as its transcript), the fixed target language ["ta"]
    and no source language; the language the caller selected goes to the
    recognition configuration, on both branches. *)
Theorem translation_call_arguments W G audio_bytes source_lang_code :
  let run := process_and_translate W G audio_bytes source_lang_code in
  let t := calls run in
  (∀ values target source,
     translate_translate values target source ∈ t →
     target = Some "ta" ∧ source = None ∧
     (∃ resp, transcription_returned W G t resp ∧
        join_transcripts (results resp) = inr values ∧
        values = concatenated_first_alternatives resp) ∧
     (∀ transcript translated audio,
        result run = Returns (Some transcript, translated, audio) →
        values = transcript)) ∧
  (∀ config audio timeout,
     speech_recognize config audio timeout ∈ t ∨
     speech_long_running_recognize config audio timeout ∈ t →
     language_code config = source_lang_code).
Proof.
  intros run t. subst t run.
  as_sat (process_and_translate W G audio_bytes source_lang_code).
  walk_process.
  all: split; [intros ??? Hin | intros ??? [Hin|Hin]]; elems; try done.
  all: split; [done|]; split; [done|].
  all: (split; [|by intros ??? [=]]).
  all: eexists; split;
         [first [left; eexists _, _, _; split; [find_call | eassumption]
                | right; eexists _, _; split; [find_call | eassumption]]
         | split; [eassumption | by apply join_transcripts_concat]].
Qed.

Lemma translation_call_arguments_witness :
  Some "ta" = Some "ta" ∧ (None : option string) = None ∧
  (∃ resp,
     transcription_returned hello_world sample_globals
       (calls (process_and_translate hello_world sample_globals clip10 "en-US")) resp ∧
     join_transcripts (results resp) = inr "hello world" ∧
     "hello world" = concatenated_first_alternatives resp) ∧
  (∀ transcript translated audio,
     result (process_and_translate hello_world sample_globals clip10 "en-US")
     = Returns (Some transcript, translated, audio) →
     "hello world" = transcript).
Proof.
  apply (proj1 (translation_call_arguments hello_world sample_globals clip10 "en-US")
           "hello world").
  in_calls.
Defined.

(** C3, as the claim states it, fails: for English speech the translation call
    is made with no source language, not with the selected ["en-US"]. *)
Lemma translation_receives_no_source_language :
  ¬ (∀ W G audio_bytes source_lang_code values target source,
       translate_translate values target source
         ∈ calls (process_and_translate W G audio_bytes source_lang_code) →
       source = Some source_lang_code ∧ target = Some "ta").
Proof.
  intros claim.
  destruct (claim hello_world sample_globals clip10 "en-US"
              "hello world" (Some "ta") None ltac:(in_calls)) as [? _].
  discriminate.
Qed.



(** C5.  Given what pydub documents for [set_channels] and [set_frame_rate],
    every audio payload the script hands to transcription, inline to
    [recognize] or through the storage upload, is the "wav" export of the
    decoded segment after [set_channels(1).set_frame_rate(16000)], a segment
    with one channel at 16000 Hz; the recognition configuration declares
    LINEAR16 at 16000 Hz; [recognize] only gets inline content and the
    long-running job only the URI of the object just uploaded. *)
Theorem transcription_gets_normalized_audio W G audio_bytes source_lang_code :
  pydub_contract W →
  let t := calls (process_and_translate W G audio_bytes source_lang_code) in
  (∀ wav,
     (∃ config timeout, speech_recognize config (content wav) timeout ∈ t) ∨
     (∃ bucket blob content_type timeout,
        blob_upload_from_string bucket blob wav content_type timeout ∈ t) →
     ∃ seg, w_from_file W audio_bytes = inr seg ∧
       let normalized := w_set_frame_rate W (w_set_channels W seg 1) 16000 in
       w_export W normalized "wav" = inr wav ∧
       w_channels W normalized = 1 ∧
       w_frame_rate W normalized = 16000) ∧
  (∀ config audio timeout,
     speech_recognize config audio timeout ∈ t ∨
     speech_long_running_recognize config audio timeout ∈ t →
     encoding config = LINEAR16 ∧ sample_rate_hertz config = 16000) ∧
  (∀ config audio timeout,
     speech_recognize config audio timeout ∈ t → ∃ wav, audio = content wav) ∧
  (∀ config audio timeout,
     speech_long_running_recognize config audio timeout ∈ t →
     ∃ blob wav,
       audio = uri ("gs://" +:+ BUCKET_NAME G +:+ "/" +:+ blob) ∧
       blob_upload_from_string (BUCKET_NAME G) blob wav "audio/wav" None ∈ t).
Proof.
  intros (Hchannels & Hrate & Hkeep) t. subst t.
  as_sat (process_and_translate W G audio_bytes source_lang_code).
  walk_process.
  all: repeat split; intros; destruct_hyps; elems.
  all: try done.
  all: try by eexists.
  all: try (eexists _, _; split; [reflexivity | find_call]).
  all: eexists; split; [reflexivity|]; cbn zeta.
  all: by rewrite ?Hrate, ?Hkeep, ?Hchannels.
Qed.

Lemma transcription_gets_normalized_audio_witness :
  pydub_contract hello_world ∧
  ∃ seg, w_from_file hello_world clip90 = inr seg ∧
    let normalized :=
      w_set_frame_rate hello_world (w_set_channels hello_world seg 1) 16000 in
    w_export hello_world normalized "wav" = inr clip90 ∧
    w_channels hello_world normalized = 1 ∧
    w_frame_rate hello_world normalized = 16000.
Proof.
  assert (pydub_contract hello_world) as contract by done.
  split; [exact contract|].
  apply (proj1 (transcription_gets_normalized_audio hello_world sample_globals
                  clip90 "hi-IN" contract) clip90).
  right. eexists _, _, _, _. in_calls.
Defined.

(** C10.  The two branches configure recognition differently: [recognize] is
    called with automatic punctuation off (not requested), the long-running
    job with it on; the encoding, the sample rate and the language are the
    same, so the two configurations differ in that one field. *)
Theorem branches_differ_in_punctuation W G audio_bytes source_lang_code :
  let t := calls (process_and_translate W G audio_bytes source_lang_code) in
  let short_config := {| encoding := LINEAR16; sample_rate_hertz := 16000;
                         language_code := source_lang_code;
                         enable_automatic_punctuation := false |} in
  let long_config := {| encoding := LINEAR16; sample_rate_hertz := 16000;
                        language_code := source_lang_code;
                        enable_automatic_punctuation := true |} in
  (∀ config audio timeout,
     speech_recognize config audio timeout ∈ t → config = short_config) ∧
  (∀ config audio timeout,
     speech_long_running_recognize config audio timeout ∈ t → config = long_config) ∧
  short_config ≠ long_config.
Proof.
  intros t short_config long_config. subst t short_config long_config.
  as_sat (process_and_translate W G audio_bytes source_lang_code).
  walk_process.
  all: repeat split; intros; elems; done.
Qed.

Lemma branches_differ_in_punctuation_witness :
  {| encoding := LINEAR16; sample_rate_hertz := 16000; language_code := "hi-IN";
     enable_automatic_punctuation := true |}
  = {| encoding := LINEAR16; sample_rate_hertz := 16000; language_code := "hi-IN";
       enable_automatic_punctuation := true |}.
Proof.
  apply (proj1 (proj2 (branches_differ_in_punctuation hello_world sample_globals
                         clip90 "hi-IN"))
           _ (uri "gs://bucket-for-translator-462605/audio-uploads/temp-1700000000.wav")
           None).
  in_calls.
Defined.

(** C9.  The only call in a request that is given a timeout is
    [operation.result], and it is given 900; it is made exactly for the job
    that [long_running_recognize] started, and when it fails (a timeout
    included) the request ends with the error message and no result. *)
Theorem only_the_operation_wait_has_a_timeout W G audio_bytes source_lang_code :
  let run := process_and_translate W G audio_bytes source_lang_code in
  Forall (λ e, explicit_timeout e
               = match e with operation_result _ _ => Some 900 | _ => None end)
    (calls run) ∧
  (∀ op timeout, operation_result op timeout ∈ calls run →
     ∃ config audio,
       speech_long_running_recognize config audio None ∈ calls run ∧
       w_long_running_recognize W (speech_client G) config audio = inr op) ∧
  (∀ config audio timeout op,
     speech_long_running_recognize config audio timeout ∈ calls run →
     w_long_running_recognize W (speech_client G) config audio = inr op →
     operation_result op (Some 900) ∈ calls run ∧
     ∀ e, w_operation_result W op (Some 900) = inl e →
       result run = Returns (None, None, None) ∧
       last (calls run)
       = Some (st_error ("An error occurred during processing: " +:+ exc_str e))).
Proof.
  intros run. subst run.
  as_sat (process_and_translate W G audio_bytes source_lang_code).
  walk_process.
  all: split; [by repeat constructor|].
  all: split; [intros ?? Hin; elems; eexists _, _; (split; [find_call | done])|].
  all: intros ???? Hin Hop; elems; same_answer.
  all: (split; [find_call|]); intros; same_answer; done.
Qed.

Lemma only_the_operation_wait_has_a_timeout_witness :
  ∃ config audio,
    speech_long_running_recognize config audio None
      ∈ calls (process_and_translate hello_world sample_globals clip90 "hi-IN") ∧
    w_long_running_recognize hello_world (speech_client sample_globals) config audio
      = inr {| operation_name := "operations/1" |}.
Proof.
  apply (proj1 (proj2 (only_the_operation_wait_has_a_timeout hello_world
                         sample_globals clip90 "hi-IN"))
           {| operation_name := "operations/1" |} (Some 900)).
  in_calls.
Defined.

(** ** Blob names *)

Lemma string_length_app (a b : string) :
  String.length (a +:+ b) = (String.length a + String.length b)%nat.
Proof.
  induction a as [|c a IH]; [done|].
  change (String c a +:+ b) with (String c (a +:+ b)). simpl. by rewrite IH.
Qed.

Lemma string_app_inj_r (t s1 s2 : string) : s1 +:+ t = s2 +:+ t → s1 = s2.
Proof.
  revert s2. induction s1 as [|c1 s1 IH]; intros [|c2 s2] Heq; [done|..].
  - apply (f_equal String.length) in Heq. rewrite !string_length_app in Heq.
    simpl in Heq. lia.
  - apply (f_equal String.length) in Heq. rewrite !string_length_app in Heq.
    simpl in Heq. lia.
  - change (String c1 (s1 +:+ t) = String c2 (s2 +:+ t)) in Heq.
    injection Heq as -> Heq. f_equal. by apply IH.
Qed.

(** Two clock readings give the same blob name exactly when they fall in the
    same whole second. *)
Lemma temp_blob_name_inj now1 now2 :
  temp_blob_name now1 = temp_blob_name now2 ↔ int_of now1 = int_of now2.
Proof.
  unfold temp_blob_name. split; [|by intros ->].
  intros Heq. apply (inj (String.app _)) in Heq.
  apply string_app_inj_r in Heq. by apply (inj pretty) in Heq.
Qed.

(** C8, as the script has it.  Every object the long path writes goes to the
    one bucket as "audio/wav" under the name
    ["audio-uploads/temp-<n>.wav"], [n] being the clock reading truncated to
    whole seconds; [upload_to_gcs] makes that one upload and, when it
    succeeds, returns ["gs://<bucket>/<name>"]; and two uploads get different
    names exactly when their clock readings differ in whole seconds. *)
Theorem upload_names_and_uri W G audio_bytes source_lang_code :
  let t := calls (process_and_translate W G audio_bytes source_lang_code) in
  (∀ bucket blob data content_type timeout,
     blob_upload_from_string bucket blob data content_type timeout ∈ t →
     bucket = BUCKET_NAME G ∧
     blob = "audio-uploads/temp-" +:+ pretty (int_of (w_time W)) +:+ ".wav" ∧
     blob = temp_blob_name (w_time W) ∧
     content_type = "audio/wav") ∧
  (∀ data name,
     calls (upload_to_gcs W G data name)
     = [blob_upload_from_string (BUCKET_NAME G) name data "audio/wav" None] ∧
     (∀ u, w_upload W (storage_client G) (BUCKET_NAME G) name data "audio/wav" = inr u →
        result (upload_to_gcs W G data name)
        = Returns ("gs://" +:+ BUCKET_NAME G +:+ "/" +:+ name))) ∧
  (∀ now1 now2,
     temp_blob_name now1 ≠ temp_blob_name now2 ↔ int_of now1 ≠ int_of now2).
Proof.
  intros t. subst t. split; [|split].
  - as_sat (process_and_translate W G audio_bytes source_lang_code).
    walk_process.
    all: intros ????? Hin; elems; done.
  - intros data name. unfold upload_to_gcs, bind, ask, ret, calls, result.
    destruct (w_upload _ _ _ _ _ _); simpl; split; try done.
  - intros now1 now2. by rewrite temp_blob_name_inj.
Qed.

Lemma upload_names_and_uri_witness :
  "bucket-for-translator-462605" = BUCKET_NAME sample_globals ∧
  "audio-uploads/temp-1700000000.wav"
  = "audio-uploads/temp-" +:+ pretty (int_of (w_time hello_world)) +:+ ".wav" ∧
  "audio-uploads/temp-1700000000.wav" = temp_blob_name (w_time hello_world) ∧
  "audio/wav" = "audio/wav".
Proof.
  apply (proj1 (upload_names_and_uri hello_world sample_globals clip90 "hi-IN")
           _ _ clip90 _ None).
  in_calls.
Defined.

(** C8, as the claim states it, fails: two uploads made at different instants
    of the same second are written under the same name. *)
Lemma uploads_in_the_same_second_collide :
  ¬ (∀ W1 W2 G audio1 audio2 lang1 lang2 blob1 blob2 data1 data2,
       blob_upload_from_string (BUCKET_NAME G) blob1 data1 "audio/wav" None
         ∈ calls (process_and_translate W1 G audio1 lang1) →
       blob_upload_from_string (BUCKET_NAME G) blob2 data2 "audio/wav" None
         ∈ calls (process_and_translate W2 G audio2 lang2) →
       ¬ (w_time W1 == w_time W2)%Q →
       blob1 ≠ blob2).
Proof.
  intros claim.
  apply (claim at_quarter_past at_quarter_to sample_globals clip90 clip90
           "en-US" "hi-IN"
           "audio-uploads/temp-1700000000.wav" "audio-uploads/temp-1700000000.wav"
           clip90 clip90); [in_calls | in_calls | discriminate | reflexivity].
Qed.

(** ** Faults *)

Ltac answered :=
  repeat match goal with
  | Heq : ?x = _, Hf : fault_of ?x = _ |- _ => rewrite Heq in Hf
  end.

Lemma process_fault_caught W G audio_bytes source_lang_code :
  sat (process_and_translate W G audio_bytes source_lang_code) (λ t o,
    (∀ ev e, ev ∈ t → service_fault W G ev = Some e →
       o = Returns (None, None, None) ∧
       last t = Some (st_error ("An error occurred during processing: " +:+ exc_str e))) ∧
    Forall (λ x, is_result_display x = false) t ∧
    (o = Returns (None, None, None) ∨
     ∃ transcript translated audio,
       o = Returns (Some transcript, Some translated, Some audio))).
Proof.
  walk_process.
  all: split; [intros ev e Hin Hf; elems; simpl in Hf; answered; by simplify_eq/=|].
  all: split; [by repeat constructor|].
  all: first [by left | right; by eexists _, _, _].
Qed.

Lemma page_fault_shows_no_result W G :
  sat (page W G) (λ t o,
    ∀ ev e, ev ∈ t → service_fault W G ev = Some e →
      st_error ("An error occurred during processing: " +:+ exc_str e) ∈ t ∧
      Forall (λ x, is_result_display x = false) t).
Proof.
  unfold page, lang_getitem. walk.
  all: try (eapply sat_mono; [|apply process_fault_caught];
            intros t o (Hfault & Hshown & [->|(?&?&?&->)]); cbn beta iota; walk).
  all: simpl; intros ev e Hin Hf; elems; try discriminate.
  all: destruct (Hfault ev e Hin Hf) as [Ho Hlast]; try discriminate Ho.
  split.
  - do 8 apply list_elem_of_further. apply elem_of_app. left.
    by apply last_Some_elem_of.
  - repeat (constructor; [done|]). apply Forall_app. by split.
Qed.

(** C6.  Whenever a call to storage, transcription, translation or synthesis
    is answered with a fault, [process_and_translate] catches it: it returns
    the all-[None] triple and its last call is the error message made of the
    fixed prefix followed by the fault's text.  The function returns in every
    case, with either no result or all three; and the page that called it
    shows that error and none of the result widgets. *)
Theorem service_faults_are_caught W G audio_bytes source_lang_code :
  let run := process_and_translate W G audio_bytes source_lang_code in
  (∀ ev e, ev ∈ calls run → service_fault W G ev = Some e →
     result run = Returns (None, None, None) ∧
     last (calls run)
     = Some (st_error ("An error occurred during processing: " +:+ exc_str e))) ∧
  (result run = Returns (None, None, None) ∨
   ∃ transcript translated audio,
     result run = Returns (Some transcript, Some translated, Some audio)) ∧
  (∀ ev e, ev ∈ calls (page W G) → service_fault W G ev = Some e →
     st_error ("An error occurred during processing: " +:+ exc_str e)
       ∈ calls (page W G) ∧
     Forall (λ x, is_result_display x = false) (calls (page W G))).
Proof.
  intros run. subst run.
  destruct (process_fault_caught W G audio_bytes source_lang_code) as (H1 & _ & H3).
  split; [exact H1|]. split; [exact H3|]. apply page_fault_shows_no_result.
Qed.

Lemma service_faults_are_caught_witness :
  st_error "An error occurred during processing: 403 Quota exceeded"
    ∈ calls (page (with_visitor no_translation) sample_globals) ∧
  Forall (λ x, is_result_display x = false)
    (calls (page (with_visitor no_translation) sample_globals)).
Proof.
  apply (proj2 (proj2 (service_faults_are_caught (with_visitor no_translation)
                         sample_globals clip10 "en-US"))
           (translate_translate "hello world" (Some "ta") None) quota_exceeded).
  - in_calls.
  - reflexivity.
Defined.

(** With a working translation service the same visitor is shown the result. *)
Example visitor_is_shown_the_result :
  filter (λ x, is_result_display x = true)
    (calls (page (with_visitor hello_world) sample_globals))
  = [st_success "Translation Complete!";
     st_text_area "Recognized Text" (Some "hello world");
     st_text_area "Translated Text (Tamil)" (Some "vanakkam ulagam");
     st_subheader "Translated Audio (Tamil)";
     st_audio ["I"; "D"; "3"]%byte "audio/mp3";
     st_balloons].
Proof. reflexivity. Qed.

(** ** Start-up *)




(** The three start-ups, call by call. *)
Example startup_from_the_secret :
  calls (load_gcp_credentials deployed)
  = [secrets_contains "gcp_credentials"; secrets_getitem "gcp_credentials";
     from_service_account_info "{...}"].
Proof. reflexivity. Qed.

Example startup_from_the_key_file :
  calls (load_gcp_credentials hello_world)
  = [secrets_contains "gcp_credentials"; os_path_exists "gcp-key.json";
     from_service_account_file "gcp-key.json"
       ["https://www.googleapis.com/auth/cloud-platform"]].
Proof. reflexivity. Qed.

Example startup_without_credentials :
  app no_credentials
  = ([st_set_page_config "Speech-to-Speech Translator";
      secrets_contains "gcp_credentials"; os_path_exists "gcp-key.json";
      st_error "GCP credentials not found. Please set them up in Streamlit Secrets or add a gcp-key.json file.";
      st_stop], Stopped).
Proof. reflexivity. Qed.

(** ** Further properties of the script *)

(** *** Joining the segments (line 77) *)

Lemma string_app_assoc (a b c : string) : (a +:+ b) +:+ c = a +:+ (b +:+ c).
Proof.
  induction a as [|x a IH]; [done|].
  change (String x ((a +:+ b) +:+ c) = String x (a +:+ (b +:+ c))). by rewrite IH.
Qed.

Lemma join_raises_iff rs :
  (∃ e, join_transcripts rs = inl e) ↔ Exists (λ r, alternatives r = []) rs.
Proof.
  induction rs as [|r rs IH].
  - split; [by intros [e ?] | by intros ?%Exists_nil].
  - rewrite Exists_cons, <- IH. cbn [join_transcripts].
    destruct (alternatives r) as [|a alts].
    + split; [by left | by eexists].
    + destruct (join_transcripts rs) as [e|s].
      * split; [right; by eexists | by eexists].
      * split; [by intros [e ?] | by intros [?|[e ?]]].
Qed.

(** X1.  Joining the segments raises exactly when some segment has no
    alternative; no other recognition answer makes line 77 fail. *)
Theorem join_transcripts_raises rs :
  (∃ e, join_transcripts rs = inl e) ↔ Exists (λ r, alternatives r = []) rs.
Proof. apply join_raises_iff. Qed.

(** X2.  Joining a recognition answer split in two parts is joining each part
    and appending the results, and it raises as soon as either part does, the
    first part first. *)
Theorem join_transcripts_app rs1 rs2 :
  join_transcripts (rs1 ++ rs2)
  = match join_transcripts rs1 with
    | inl e => inl e
    | inr s1 =>
        match join_transcripts rs2 with
        | inl e => inl e
        | inr s2 => inr (s1 +:+ s2)
        end
    end.
Proof.
  induction rs1 as [|r rs1 IH].
  - simpl. by destruct (join_transcripts rs2).
  - simpl. destruct (alternatives r) as [|a alts]; [done|].
    rewrite IH. destruct (join_transcripts rs1) as [e|s1]; [done|].
    destruct (join_transcripts rs2) as [e|s2]; [done|].
    by rewrite string_app_assoc.
Qed.

(** X3.  Only the first alternative of each segment counts: two answers whose
    segments agree on their first alternatives (or both lack one) join to the
    same transcript, or raise alike. *)
Theorem join_transcripts_first_alternative_only rs rs' :
  Forall2 (λ r r', head (alternatives r) = head (alternatives r')) rs rs' →
  join_transcripts rs = join_transcripts rs'.
Proof.
  induction 1 as [|r r' rs rs' Hhead _ IH]; [done|].
  cbn [join_transcripts]. rewrite IH.
  destruct (alternatives r) as [|a ?], (alternatives r') as [|a' ?];
    simplify_eq/=; done.
Qed.

Lemma join_transcripts_first_alternative_only_witness :
  join_transcripts (results (sample_response [["hello "; "hallo "]; ["world"]]))
  = join_transcripts (results (sample_response [["hello "]; ["world"; "word"; "whirl"]])).
Proof.
  apply join_transcripts_first_alternative_only.
  repeat constructor.
Defined.

(** *** Requests *)

(** X4.  When the recognition answer has a segment with no alternative, the
    request ends as a fault and not as "no speech": it returns the all-[None]
    triple, its last call is an error message, and it shows no warning and
    makes no translation call. *)
Theorem segment_without_alternative_is_an_error W G audio_bytes source_lang_code :
  let run := process_and_translate W G audio_bytes source_lang_code in
  ∀ resp,
    transcription_returned W G (calls run) resp →
    Exists (λ r, alternatives r = []) (results resp) →
    result run = Returns (None, None, None) ∧
    (∃ message, last (calls run) = Some (st_error message)) ∧
    Forall (λ e, is_translation_call e = false ∧ is_warning e = false) (calls run).
Proof.
  intros run. subst run.
  as_sat (process_and_translate W G audio_bytes source_lang_code).
  walk_process.
  all: intros resp [(?&?&?&Hin&?)|(?&?&Hin&?)] [e Hraises]%join_raises_iff;
       elems; same_answer.
  all: split; [done|]; split; [by eexists|]; by repeat constructor.
Qed.

Lemma segment_without_alternative_is_an_error_witness :
  result (process_and_translate no_alternative sample_globals clip10 "en-US")
  = Returns (None, None, None) ∧
  (∃ message,
     last (calls (process_and_translate no_alternative sample_globals clip10 "en-US"))
     = Some (st_error message)) ∧
  Forall (λ e, is_translation_call e = false ∧ is_warning e = false)
    (calls (process_and_translate no_alternative sample_globals clip10 "en-US")).
Proof.
  apply (segment_without_alternative_is_an_error no_alternative sample_globals
           clip10 "en-US" (sample_response [["hello "]; []])).
  - left. eexists _, _, _. split; [in_calls | reflexivity].
  - apply Exists_cons_tl, Exists_cons_hd. reflexivity.
Defined.

(** X5.  When the translation service answers with a dictionary that has no
    "translatedText" entry, the request ends as a fault: it returns the
    all-[None] triple, its last call is the error message with the text of the
    [KeyError], and synthesis is never called. *)
Theorem missing_translated_text_is_an_error W G audio_bytes source_lang_code :
  let run := process_and_translate W G audio_bytes source_lang_code in
  ∀ values target source d,
    translate_translate values target source ∈ calls run →
    w_translate W (translate_client G) values target source = inr d →
    d !! "translatedText" = None →
    result run = Returns (None, None, None) ∧
    last (calls run)
    = Some (st_error "An error occurred during processing: 'translatedText'") ∧
    Forall (λ e, is_synthesis_call e = false) (calls run).
Proof.
  intros run. subst run.
  as_sat (process_and_translate W G audio_bytes source_lang_code).
  walk_process.
  all: intros ???? Hin Hanswer Hkey; elems; same_answer.
  all: split; [done|]; split; [done|]; by repeat constructor.
Qed.

Lemma missing_translated_text_is_an_error_witness :
  result (process_and_translate untranslated sample_globals clip10 "en-US")
  = Returns (None, None, None) ∧
  last (calls (process_and_translate untranslated sample_globals clip10 "en-US"))
  = Some (st_error "An error occurred during processing: 'translatedText'") ∧
  Forall (λ e, is_synthesis_call e = false)
    (calls (process_and_translate untranslated sample_globals clip10 "en-US")).
Proof.
  apply (missing_translated_text_is_an_error untranslated sample_globals clip10 "en-US"
           "hello world" (Some "ta") None {[ "input" := "hello world" ]}).
  - in_calls.
  - reflexivity.
  - reflexivity.
Defined.

(** X6.  Every synthesis call asks for the voice "ta-IN", neutral gender, MP3
    output, and its text is the "translatedText" entry of the answer the
    translation service gave to this request's translation call. *)
Theorem synthesis_speaks_the_translation W G audio_bytes source_lang_code :
  let t := calls (process_and_translate W G audio_bytes source_lang_code) in
  ∀ input voice audio_config timeout,
    tts_synthesize_speech input voice audio_config timeout ∈ t →
    voice = tamil_voice ∧ audio_config = mp3_output ∧
    ∃ values d,
      translate_translate values (Some "ta") None ∈ t ∧
      w_translate W (translate_client G) values (Some "ta") None = inr d ∧
      d !! "translatedText" = Some (text input).
Proof.
  intros t. subst t.
  as_sat (process_and_translate W G audio_bytes source_lang_code).
  walk_process.
  all: intros ???? Hin; elems.
  all: split; [done|]; split; [done|].
  all: eexists _, _; split; [find_call | split; eassumption].
Qed.

Lemma synthesis_speaks_the_translation_witness :
  tamil_voice = tamil_voice ∧ mp3_output = mp3_output ∧
  ∃ values d,
    translate_translate values (Some "ta") None
      ∈ calls (process_and_translate hello_world sample_globals clip90 "hi-IN") ∧
    w_translate hello_world (translate_client sample_globals) values (Some "ta") None
    = inr d ∧
    d !! "translatedText" = Some "vanakkam ulagam".
Proof.
  apply (synthesis_speaks_the_translation hello_world sample_globals clip90 "hi-IN"
           {| text := "vanakkam ulagam" |} tamil_voice mp3_output None).
  in_calls.
Defined.

(** X7.  A request that returns a full triple returns a non-empty transcript,
    the "translatedText" entry of the translation of that transcript into
    "ta", and the audio content the synthesis service answered for that
    translated text. *)
Theorem returned_triple_is_what_the_services_answered W G audio_bytes source_lang_code :
  ∀ transcript translated audio,
    result (process_and_translate W G audio_bytes source_lang_code)
    = Returns (Some transcript, Some translated, Some audio) →
    transcript ≠ "" ∧
    ∃ d r,
      w_translate W (translate_client G) transcript (Some "ta") None = inr d ∧
      d !! "translatedText" = Some translated ∧
      w_synthesize_speech W (tts_client G) {| text := translated |}
        tamil_voice mp3_output = inr r ∧
      audio = audio_content r.
Proof.
  as_sat (process_and_translate W G audio_bytes source_lang_code).
  walk_process.
  all: intros ??? [=]; subst; decided.
  all: split; [done|]; by eexists _, _.
Qed.

Lemma returned_triple_is_what_the_services_answered_witness :
  "hello world" ≠ "" ∧
  ∃ d r,
    w_translate hello_world (translate_client sample_globals) "hello world"
      (Some "ta") None = inr d ∧
    d !! "translatedText" = Some "vanakkam ulagam" ∧
    w_synthesize_speech hello_world (tts_client sample_globals)
      {| text := "vanakkam ulagam" |} tamil_voice mp3_output = inr r ∧
    ["I"; "D"; "3"]%byte = audio_content r.
Proof.
  apply (returned_triple_is_what_the_services_answered hello_world sample_globals
           clip10 "en-US").
  reflexivity.
Defined.

(** X8.  The service calls of a request are, in order, an initial part of
    recognize, translate, synthesize, or of upload, long-running recognize,
    wait, translate, synthesize: each service is called at most once, nothing
    is retried, and no stage runs before the one it depends on. *)
Theorem service_calls_follow_the_pipeline W G audio_bytes source_lang_code :
  let made := omap service_call
                (calls (process_and_translate W G audio_bytes source_lang_code)) in
  made `prefix_of` short_pipeline ∨ made `prefix_of` long_pipeline.
Proof.
  intros made. subst made.
  as_sat (process_and_translate W G audio_bytes source_lang_code).
  walk_process.
  all: first [left; eexists; reflexivity | right; eexists; reflexivity].
Qed.

(** X9.  When pydub cannot decode the upload, or cannot export the normalized
    segment, the request shows the error with the fault's text and returns the
    all-[None] triple having called none of the four services. *)
Theorem failed_normalization_reaches_no_service W G audio_bytes source_lang_code :
  (∀ e, w_from_file W audio_bytes = inl e →
     process_and_translate W G audio_bytes source_lang_code
     = ([st_write "1. Processing audio..."; AudioSegment_from_file audio_bytes;
         st_error ("An error occurred during processing: " +:+ exc_str e)],
        Returns (None, None, None))) ∧
  (∀ seg e, w_from_file W audio_bytes = inr seg →
     w_export W (w_set_frame_rate W (w_set_channels W seg 1) 16000) "wav" = inl e →
     process_and_translate W G audio_bytes source_lang_code
     = ([st_write "1. Processing audio..."; AudioSegment_from_file audio_bytes;
         AudioSegment_export "wav";
         st_error ("An error occurred during processing: " +:+ exc_str e)],
        Returns (None, None, None))).
Proof.
  split.
  - intros e Hdecode.
    unfold process_and_translate, process_and_translate_body, try_except, bind, ask, emit.
    by rewrite Hdecode.
  - intros seg e Hdecode Hexport.
    unfold process_and_translate, process_and_translate_body, try_except, bind, ask, emit.
    rewrite Hdecode. cbn iota beta zeta. by rewrite Hexport.
Qed.

Lemma failed_normalization_reaches_no_service_witness :
  process_and_translate hello_world sample_globals [] "en-US"
  = ([st_write "1. Processing audio..."; AudioSegment_from_file [];
      st_error "An error occurred during processing: Decoding failed."],
     Returns (None, None, None)).
Proof.
  apply (proj1 (failed_normalization_reaches_no_service hello_world sample_globals
                  [] "en-US")
           {| exc_class := "CouldntDecodeError"; exc_str := "Decoding failed." |}).
  reflexivity.
Defined.

(** X10.  In milliseconds: a normalized segment shorter than 60000 ms is sent
    inline to [recognize]; one of 60000 ms or more is uploaded; and in both
    cases the bytes are the "wav" export of that segment. *)
Theorem sixty_thousand_milliseconds_is_the_threshold W G audio_bytes source_lang_code :
  let t := calls (process_and_translate W G audio_bytes source_lang_code) in
  ∀ seg wav,
    w_from_file W audio_bytes = inr seg →
    let normalized := w_set_frame_rate W (w_set_channels W seg 1) 16000 in
    w_export W normalized "wav" = inr wav →
    (w_len W normalized < 60000 →
       (∃ config, speech_recognize config (content wav) None ∈ t) ∧
       omap service_call t `prefix_of` short_pipeline) ∧
    (60000 ≤ w_len W normalized →
       (∃ blob, blob_upload_from_string (BUCKET_NAME G) blob wav "audio/wav" None ∈ t) ∧
       omap service_call t `prefix_of` long_pipeline).
Proof.
  intros t. subst t.
  as_sat (process_and_translate W G audio_bytes source_lang_code).
  walk_process.
  all: intros seg wav [= <-] Hexport; same_answer.
  all: match goal with H : Qlt_bool _ _ = _ |- _ => rewrite duration_lt_60 in H end.
  all: decided.
  all: split; intros Hlen; try lia.
  all: (split; [eexists; find_call | eexists; reflexivity]).
Qed.

Lemma sixty_thousand_milliseconds_is_the_threshold_witness :
  (∃ blob, blob_upload_from_string (BUCKET_NAME sample_globals) blob clip90
             "audio/wav" None
     ∈ calls (process_and_translate hello_world sample_globals clip90 "hi-IN")) ∧
  omap service_call (calls (process_and_translate hello_world sample_globals clip90 "hi-IN"))
    `prefix_of` long_pipeline.
Proof.
  apply (proj2 (sixty_thousand_milliseconds_is_the_threshold hello_world sample_globals
                  clip90 "hi-IN"
                  {| clip_channels := 2; clip_frame_rate := 44100; clip_ms := 90000;
                     clip_pcm := clip90 |} clip90 eq_refl eq_refl)).
  vm_compute. discriminate.
Defined.

(** *** Blob names (line 71) *)

Lemma int_of_floor (t : Q) :
  (0 <= t)%Q → (inject_Z (int_of t) <= t)%Q ∧ (t < inject_Z (int_of t + 1))%Q.
Proof.
  destruct t as [n d]. unfold Qle, Qlt, int_of. simpl. intros Hn.
  assert (0 <= n) as Hn' by lia.
  rewrite Z.quot_div_nonneg by lia.
  pose proof (Z.mul_div_le n (Z.pos d) ltac:(lia)).
  pose proof (Z.mul_succ_div_gt n (Z.pos d) ltac:(lia)).
  split; lia.
Qed.

(** X11.  Two uploads whose clocks read a second or more apart (Unix time, so
    not negative) are written under different names. *)
Theorem names_a_second_apart_differ (now1 now2 : Q) :
  (0 <= now1)%Q → (now1 + 1 <= now2)%Q →
  temp_blob_name now1 ≠ temp_blob_name now2.
Proof.
  intros Hpos Hlater Hsame%temp_blob_name_inj.
  assert (0 <= now2)%Q as Hpos2.
  { eapply Qle_trans; [exact Hpos|]. eapply Qle_trans; [|exact Hlater].
    rewrite <- (Qplus_0_r now1) at 1. by apply Qplus_le_r. }
  destruct (int_of_floor now1 Hpos) as [Hle1 _].
  destruct (int_of_floor now2 Hpos2) as [_ Hlt2].
  rewrite <- Hsame in Hlt2.
  assert (inject_Z (int_of now1 + 1) < inject_Z (int_of now1 + 1))%Q as Habsurd.
  { eapply Qle_lt_trans; [|exact Hlt2].
    eapply Qle_trans; [|exact Hlater].
    rewrite inject_Z_plus. by apply Qplus_le_l. }
  by apply Qlt_irrefl in Habsurd.
Qed.

Lemma names_a_second_apart_differ_witness :
  temp_blob_name 1700000000 ≠ temp_blob_name (3400000003 # 2).
Proof. apply names_a_second_apart_differ; by vm_compute. Defined.

(** *** Start-up (lines 16-42) *)

(** A step through the start-up block: an answer that depends on the secret
    store or on a constructor is opened at its source. *)
Ltac startup_step :=
  lazymatch goal with
  | |- sat (ask _ (match ?x with _ => _ end)) _ => destruct x eqn:?; cbn beta iota
  | |- sat (ask _ (inl _)) _ => apply sat_ask; cbn beta iota
  | _ => walk_step
  end.

Ltac walk_startup :=
  unfold initialize_clients, load_gcp_credentials, make_client; repeat startup_step; simpl.

Ltac startup_answered :=
  repeat match goal with
  | Heq : ?x = _, Hf : fault_of ?x = _ |- _ => rewrite Heq in Hf
  end.

(** The calls end with these two. *)
Ltac ends_with :=
  first [by eexists [] | by eexists [_] | by eexists [_; _] | by eexists [_; _; _]
        | by eexists [_; _; _; _] | by eexists [_; _; _; _; _]
        | by eexists [_; _; _; _; _; _] | by eexists [_; _; _; _; _; _; _]].

(** X12.  The start-up block never lets an exception out.  When the secret
    store, a credentials constructor or a client constructor raises, it shows
    "Error initializing Google Cloud clients: " followed by the fault's text
    and stops the script: these are its last two calls. *)
Theorem startup_fault_is_fatal W :
  (∀ e, result (initialize_clients W) ≠ Raises e) ∧
  (∀ ev e, ev ∈ calls (initialize_clients W) → startup_fault W ev = Some e →
     result (initialize_clients W) = Stopped ∧
     ∃ before,
       calls (initialize_clients W)
       = before ++ [st_error ("Error initializing Google Cloud clients: " +:+ exc_str e);
                    st_stop]).
Proof.
  as_sat (initialize_clients W).
  walk_startup.
  all: split; [done|].
  all: intros ev e Hin Hf; elems; simpl in Hf; startup_answered; simplify_eq/=.
  all: split; [done | ends_with].
Qed.

Lemma startup_fault_is_fatal_witness :
  result (initialize_clients tts_client_down) = Stopped ∧
  ∃ before,
    calls (initialize_clients tts_client_down)
    = before ++ [st_error "Error initializing Google Cloud clients: 503 unavailable";
                 st_stop].
Proof.
  apply (proj2 (startup_fault_is_fatal tts_client_down)
           (new_client TextToSpeech
              (from_file_scoped "gcp-key.json"
                 ["https://www.googleapis.com/auth/cloud-platform"]))
           unavailable).
  - in_calls.
  - reflexivity.
Defined.

(** X13.  A secret that is present but rejected by the credentials constructor
    is fatal: the script shows the initialization error and stops without ever
    looking for "gcp-key.json", whether or not that file exists. *)
Theorem malformed_secret_does_not_fall_back W secrets creds_json e :
  w_secrets W = inr secrets →
  secrets !! "gcp_credentials" = Some creds_json →
  w_from_service_account_info W creds_json = inl e →
  app W
  = ([st_set_page_config "Speech-to-Speech Translator";
      secrets_contains "gcp_credentials"; secrets_getitem "gcp_credentials";
      from_service_account_info creds_json;
      st_error ("Error initializing Google Cloud clients: " +:+ exc_str e);
      st_stop], Stopped).
Proof.
  intros Hsecrets Hkey Hinfo.
  unfold app, initialize_clients, load_gcp_credentials, try_except, bind, ask, emit, stop.
  rewrite Hsecrets, Hkey. simpl. by rewrite Hinfo.
Qed.

Lemma malformed_secret_does_not_fall_back_witness :
  w_path_exists malformed_secret "gcp-key.json" = true ∧
  app malformed_secret
  = ([st_set_page_config "Speech-to-Speech Translator";
      secrets_contains "gcp_credentials"; secrets_getitem "gcp_credentials";
      from_service_account_info "{";
      st_error "Error initializing Google Cloud clients: Service account info was not in the expected format";
      st_stop], Stopped).
Proof.
  split; [reflexivity|].
  apply (malformed_secret_does_not_fall_back malformed_secret
           {[ "gcp_credentials" := "{" ]} "{" malformed); reflexivity.
Defined.

(** X14.  When start-up succeeds, the four clients are the Speech, Translate,
    Text-to-Speech and Storage clients, built in that order as the last four
    calls, all from the one set of credentials; the bucket is the fixed one;
    and the credentials come from the secret when the store holds it, and
    otherwise from the key file with the cloud-platform scope. *)
Theorem clients_share_the_credentials W G :
  result (initialize_clients W) = Returns G →
  speech_client G = {| client_service := Speech; client_credentials := credentials G |} ∧
  translate_client G
  = {| client_service := Translate; client_credentials := credentials G |} ∧
  tts_client G
  = {| client_service := TextToSpeech; client_credentials := credentials G |} ∧
  storage_client G
  = {| client_service := Storage; client_credentials := credentials G |} ∧
  BUCKET_NAME G = "bucket-for-translator-462605" ∧
  (∃ before,
     calls (initialize_clients W)
     = before ++ [new_client Speech (credentials G);
                  new_client Translate (credentials G);
                  new_client TextToSpeech (credentials G);
                  new_client Storage (credentials G)]) ∧
  ((∃ creds_json, credentials G = from_info creds_json ∧
      ∃ secrets, w_secrets W = inr secrets ∧
        secrets !! "gcp_credentials" = Some creds_json) ∨
   (credentials G
    = from_file_scoped "gcp-key.json" ["https://www.googleapis.com/auth/cloud-platform"] ∧
    w_path_exists W "gcp-key.json" = true ∧
    ∃ secrets, w_secrets W = inr secrets ∧ secrets !! "gcp_credentials" = None)).
Proof.
  revert G. as_sat (initialize_clients W).
  walk_startup.
  all: intros G [= <-]; simpl; decided.
  all: do 5 (split; [done|]).
  all: split; [by eexists [_; _; _]|].
  - left. eexists. split; [reflexivity|]. eexists. split; [reflexivity | eassumption].
  - right. split; [reflexivity|]. split; [reflexivity|].
    eexists. split; [reflexivity|]. by apply eq_None_not_Some.
Qed.

Lemma clients_share_the_credentials_witness :
  speech_client sample_globals
  = {| client_service := Speech; client_credentials := credentials sample_globals |} ∧
  translate_client sample_globals
  = {| client_service := Translate; client_credentials := credentials sample_globals |} ∧
  tts_client sample_globals
  = {| client_service := TextToSpeech; client_credentials := credentials sample_globals |} ∧
  storage_client sample_globals
  = {| client_service := Storage; client_credentials := credentials sample_globals |} ∧
  BUCKET_NAME sample_globals = "bucket-for-translator-462605".
Proof.
  assert (result (initialize_clients hello_world) = Returns sample_globals) as started
    by (vm_compute; reflexivity).
  destruct (clients_share_the_credentials hello_world sample_globals started)
    as (H1 & H2 & H3 & H4 & H5 & _).
  repeat split; assumption.
Defined.

(** *** The page (lines 97-121) *)

(** What the page needs to know of a request. *)
Lemma request_seen_from_the_page W G audio_bytes source_lang_code :
  sat (process_and_translate W G audio_bytes source_lang_code) (λ t o,
    Forall (λ e, is_result_display e = false ∧ is_widget e = false) t ∧
    (∀ config audio timeout,
       speech_recognize config audio timeout ∈ t ∨
       speech_long_running_recognize config audio timeout ∈ t →
       language_code config = source_lang_code) ∧
    (o = Returns (None, None, None) ∨
     ∃ transcript translated r,
       o = Returns (Some transcript, Some translated, Some (audio_content r)) ∧
       translate_translate transcript (Some "ta") None ∈ t ∧
       w_synthesize_speech W (tts_client G) {| text := translated |}
         tamil_voice mp3_output = inr r)).
Proof.
  walk_process.
  all: split; [by repeat constructor|].
  all: split; [intros ??? [Hin|Hin]; elems; done|].
  all: first [by left | right; eexists _, _, _; split; [reflexivity|];
                        split; [find_call | eassumption]].
Qed.

Ltac walk_page :=
  unfold page, lang_getitem; walk;
  try (eapply sat_mono; [|apply request_seen_from_the_page];
       intros t o (Hquiet & Hlanguage & [->|(?&?&?&->&?&?)]); cbn beta iota; walk);
  simpl.

(** X15.  Until a file is uploaded and the button pressed, the page only draws
    its widgets: it decodes nothing and calls no service. *)
Theorem idle_page_processes_nothing W G :
  w_file_uploader W = None ∨ w_button W = false →
  Forall (λ e, is_widget e = true) (calls (page W G)).
Proof.
  as_sat (page W G). walk_page.
  all: intros [?|?]; try congruence.
  all: by repeat constructor.
Qed.

Lemma idle_page_processes_nothing_witness :
  Forall (λ e, is_widget e = true) (calls (page hesitant_visitor sample_globals)).
Proof.
  apply idle_page_processes_nothing. right. reflexivity.
Defined.

Lemma lang_found selection n kv :
  list_find (λ kv : string * string, kv.1 = selection) input_lang_options = Some (n, kv) →
  (selection = "English" ∧ kv.2 = "en-US") ∨ (selection = "Hindi" ∧ kv.2 = "hi-IN").
Proof.
  unfold input_lang_options. simpl. repeat case_decide; intros [=]; subst; auto.
Qed.

Lemma lang_not_found selection :
  list_find (λ kv : string * string, kv.1 = selection) input_lang_options = None ↔
  selection ≠ "English" ∧ selection ≠ "Hindi".
Proof.
  unfold input_lang_options. simpl. repeat case_decide; simplify_eq/=; naive_solver.
Qed.

(** X16.  The language given to recognition is "en-US" when the visitor
    selected "English" and "hi-IN" when the visitor selected "Hindi"; any
    other selection raises [KeyError] right after the selector, before the
    uploader is drawn. *)
Theorem selected_language_reaches_recognition W G :
  let selection := w_radio W ["English"; "Hindi"] in
  (∀ config audio timeout,
     speech_recognize config audio timeout ∈ calls (page W G) ∨
     speech_long_running_recognize config audio timeout ∈ calls (page W G) →
     (selection = "English" ∧ language_code config = "en-US") ∨
     (selection = "Hindi" ∧ language_code config = "hi-IN")) ∧
  (selection ≠ "English" → selection ≠ "Hindi" →
     calls (page W G)
     = [st_title "Speech-to-Speech Translator";
        st_markdown "Translate **English** or **Hindi** into audible **Tamil** by uploading an audio file.";
        st_divider;
        st_radio "1. Select the language of the uploaded audio:" ["English"; "Hindi"]] ∧
     result (page W G) = Raises (KeyError selection)).
Proof.
  intros selection. split.
  - subst selection. as_sat (page W G). walk_page.
    all: intros ??? [Hin|Hin]; elems.
    all: match goal with H : list_find _ _ = Some _ |- _ => apply lang_found in H end.
    all: match goal with
         | H : speech_recognize _ _ _ ∈ _ |- _ => rewrite (Hlanguage _ _ _ (or_introl H))
         | H : speech_long_running_recognize _ _ _ ∈ _ |- _ =>
             rewrite (Hlanguage _ _ _ (or_intror H))
         end.
    all: assumption.
  - subst selection. as_sat (page W G). walk_page.
    all: intros Hen Hhi.
    all: try match goal with
             | H : list_find _ _ = Some _ |- _ =>
                 apply lang_found in H as [[? _]|[? _]]; contradiction
             end.
    done.
Qed.

Lemma selected_language_reaches_recognition_witness :
  (w_radio hindi_visitor ["English"; "Hindi"] = "English" ∧
   language_code {| encoding := LINEAR16; sample_rate_hertz := 16000;
                    language_code := "hi-IN";
                    enable_automatic_punctuation := false |} = "en-US") ∨
  (w_radio hindi_visitor ["English"; "Hindi"] = "Hindi" ∧
   language_code {| encoding := LINEAR16; sample_rate_hertz := 16000;
                    language_code := "hi-IN";
                    enable_automatic_punctuation := false |} = "hi-IN").
Proof.
  apply (proj1 (selected_language_reaches_recognition hindi_visitor sample_globals)
           _ (content clip10) None).
  left. in_calls.
Defined.

Example tamil_is_not_on_offer :
  page tamil_selected sample_globals
  = ([st_title "Speech-to-Speech Translator";
      st_markdown "Translate **English** or **Hindi** into audible **Tamil** by uploading an audio file.";
      st_divider;
      st_radio "1. Select the language of the uploaded audio:" ["English"; "Hindi"]],
     Raises (KeyError "Tamil")).
Proof. reflexivity. Qed.

(** X17.  Nothing that happens in a request stops the page or makes it raise:
    the page is never stopped, and the only exception it can end with is the
    [KeyError] of a selection that is not on offer. *)
Theorem request_faults_never_leave_the_page W G :
  result (page W G) ≠ Stopped ∧
  (∀ e, result (page W G) = Raises e →
     e = KeyError (w_radio W ["English"; "Hindi"]) ∧
     w_radio W ["English"; "Hindi"] ≠ "English" ∧
     w_radio W ["English"; "Hindi"] ≠ "Hindi").
Proof.
  as_sat (page W G). walk_page.
  all: split; [done|]; intros e [=]; subst.
  all: match goal with H : list_find _ _ = None |- _ => apply lang_not_found in H end.
  all: by split.
Qed.

(** X18.  What the page shows is what the request processed: the recognized
    text on display is the transcript that was sent to translation, it comes
    with the translated text, and the audio offered is the non-empty content
    the synthesis service answered for that translated text. *)
Theorem displayed_result_is_the_processed_one W G :
  ∀ shown, st_text_area "Recognized Text" shown ∈ calls (page W G) →
    ∃ transcript translated r,
      shown = Some transcript ∧
      translate_translate transcript (Some "ta") None ∈ calls (page W G) ∧
      st_text_area "Translated Text (Tamil)" (Some translated) ∈ calls (page W G) ∧
      w_synthesize_speech W (tts_client G) {| text := translated |}
        tamil_voice mp3_output = inr r ∧
      audio_content r ≠ [] ∧
      st_audio (audio_content r) "audio/mp3" ∈ calls (page W G).
Proof.
  as_sat (page W G). walk_page.
  all: intros shown Hin; elems; try done.
  all: try (exfalso; eapply Forall_forall in Hquiet as [Hno _]; [|eassumption];
            discriminate Hno).
  all: eexists _, _, _; split; [reflexivity|].
  all: split; [do 8 apply list_elem_of_further; apply elem_of_app; by left|].
  all: split; [do 8 apply list_elem_of_further; apply elem_of_app; right; find_call|].
  all: split; [eassumption|].
  all: split; [by destruct (audio_content _)|].
  all: do 8 apply list_elem_of_further; apply elem_of_app; right; find_call.
Qed.

Lemma displayed_result_is_the_processed_one_witness :
  ∃ transcript translated r,
    Some "hello world" = Some transcript ∧
    translate_translate transcript (Some "ta") None
      ∈ calls (page (with_visitor hello_world) sample_globals) ∧
    st_text_area "Translated Text (Tamil)" (Some translated)
      ∈ calls (page (with_visitor hello_world) sample_globals) ∧
    w_synthesize_speech (with_visitor hello_world) (tts_client sample_globals)
      {| text := translated |} tamil_voice mp3_output = inr r ∧
    audio_content r ≠ [] ∧
    st_audio (audio_content r) "audio/mp3"
      ∈ calls (page (with_visitor hello_world) sample_globals).
Proof.
  apply (displayed_result_is_the_processed_one (with_visitor hello_world) sample_globals).
  in_calls.
Defined.

Lemma quiet_request_in_page (t : list event) :
  Forall (λ e, is_result_display e = false ∧ is_widget e = false) t →
  Forall (λ e, is_result_display e = false) (t ++ []).
Proof.
  intros Hquiet. rewrite app_nil_r. eapply Forall_impl; [exact Hquiet|]. by intros e [? _].
Qed.

(** X19.  The page shows a result only for non-empty audio: if the synthesis
    service answers with empty audio content, nothing is displayed, not even
    the recognized and the translated text of a request that succeeded. *)
Theorem mute_synthesis_shows_nothing W G :
  (∀ input voice audio_config r,
     w_synthesize_speech W (tts_client G) input voice audio_config = inr r →
     audio_content r = []) →
  Forall (λ e, is_result_display e = false) (calls (page W G)).
Proof.
  as_sat (page W G). walk_page.
  all: intros Hmute; try done.
  all: try match goal with
           | H : w_synthesize_speech _ _ _ _ _ = inr ?r |- _ =>
               apply Hmute in H;
               match goal with Ht : truthy (Some (audio_content r)) = true |- _ =>
                 rewrite H in Ht; discriminate Ht end
           end.
  all: repeat (constructor; [done|]); try done.
  all: by apply quiet_request_in_page.
Qed.

Lemma mute_synthesis_shows_nothing_witness :
  Forall (λ e, is_result_display e = false) (calls (page mute_synthesis sample_globals)).
Proof.
  apply mute_synthesis_shows_nothing. by intros ???? [= <-].
Defined.

Example mute_synthesis_succeeded :
  result (process_and_translate mute_synthesis sample_globals clip10 "en-US")
  = Returns (Some "hello world", Some "vanakkam ulagam", Some []).
Proof. reflexivity. Qed.
